(** * NiMARE [Dataset]: a shallow embedding of [nimare/dataset/dataset.py]

    The development models the [Dataset] container of NiMARE: its
    constructor ([json.load] of a file), the data-requirement check
    [has_data], the retrieval method [get], the four [pass]-bodied query
    methods, and the pickle-based persistence pair [save] / [load].

    Python values are an inductive type, dictionaries are [gmap]s with string
    keys, raised exceptions are the [Raise] branch of a result type, the file
    system is an explicit store from paths to byte lists, and the three
    library modules the code calls ([json], [pickle], [gzip]) are the fields
    of the class [Libs]. *)

From Stdlib Require Import ZArith Ascii.
From Stdlib Require Strings.String Strings.Byte.
From stdpp Require Import base strings list gmap pretty.

#[local] Set Warnings "-register-all".

(** ** Python values and exceptions *)

(** The values [json.load] can produce.  A float is kept as its IEEE-754
    binary64 bit pattern; the code never computes with numbers. *)
Inductive pyval :=
  | VNone
  | VBool (b : bool)
  | VInt (n : Z)
  | VFloat (bits : Z)
  | VStr (s : string)
  | VList (l : list pyval)
  | VDict (m : gmap string pyval).

(** The exception classes that occur in the module and in the library calls
    it makes. *)
Inductive exc_class :=
  | Exception
  | IOError
  | EOFError
  | AttributeError
  | TypeError
  | ValueError
  | UnicodeDecodeError
  | UnpicklingError.

#[global] Instance exc_class_eq_dec : EqDecision exc_class.
Proof. solve_decision. Defined.

Record exn := Exn { exn_class : exc_class; exn_msg : string }.

(** Outcome of a call: a returned value or a raised exception. *)
Inductive result (A : Type) :=
  | Return (a : A)
  | Raise (e : exn).
Arguments Return {A} a.
Arguments Raise {A} e.

#[global] Instance result_ret : MRet result := fun A a => Return a.
#[global] Instance result_bind : MBind result := fun A B f r =>
  match r with
  | Return a => f a
  | Raise e => Raise e
  end.
#[global] Instance result_fmap : FMap result := fun A B f r =>
  match r with
  | Return a => Return (f a)
  | Raise e => Raise e
  end.

(** [try: body except cls: handler] *)
Definition try_except {A} (body : result A) (cls : exc_class)
    (handler : result A) : result A :=
  match body with
  | Return a => Return a
  | Raise e => if decide (exn_class e = cls) then handler else Raise e
  end.

(** [try: body except: handler] (a bare [except] catches every class) *)
Definition try_except_all {A} (body : result A) (handler : result A) : result A :=
  match body with
  | Return a => Return a
  | Raise _ => handler
  end.

(** [for x in xs: body x] where the body only has an effect by raising. *)
Fixpoint for_each {A} (xs : list A) (body : A → result unit) : result unit :=
  match xs with
  | [] => Return tt
  | x :: xs' => body x ≫= λ _, for_each xs' body
  end.

(** [[x for x in xs if cond x]] *)
Fixpoint comprehension_if {A} (xs : list A) (cond : A → result bool)
    : result (list A) :=
  match xs with
  | [] => Return []
  | x :: xs' =>
      b ← cond x;
      rest ← comprehension_if xs' cond;
      Return (if b : bool then x :: rest else rest)
  end.

(** [type(v).__name__], in the spelling of Python 3 *)
Definition type_name (v : pyval) : string :=
  match v with
  | VNone => "NoneType"
  | VBool _ => "bool"
  | VInt _ => "int"
  | VFloat _ => "float"
  | VStr _ => "str"
  | VList _ => "list"
  | VDict _ => "dict"
  end.

Definition no_attribute (v : pyval) (attr : string) : exn :=
  Exn AttributeError
      ("'" +:+ type_name v +:+ "' object has no attribute '" +:+ attr +:+ "'").

(** ** String methods *)

(** [s.startswith(p)] *)
Fixpoint startswith (s p : string) : bool :=
  match p, s with
  | EmptyString, _ => true
  | String _ _, EmptyString => false
  | String a p', String b s' => if decide (a = b) then startswith s' p' else false
  end.

(** [s[n:]] *)
Fixpoint string_drop (n : nat) (s : string) : string :=
  match n, s with
  | O, _ => s
  | S _, EmptyString => EmptyString
  | S n', String _ s' => string_drop n' s'
  end.

(** [s.endswith(suffix)] *)
Definition endswith (s suffix : string) : bool :=
  bool_decide (Strings.String.length suffix ≤ Strings.String.length s)
  && bool_decide
       (string_drop (Strings.String.length s - Strings.String.length suffix) s
        = suffix).

(** [s.split(sep)] for a non-empty separator: the scan goes left to right,
    [cur] is the piece being collected and [skip] counts the characters of a
    matched separator still to be passed over. *)
Fixpoint split_go (sep : string) (skip : nat) (cur : string) (s : string)
    : list string :=
  match s with
  | EmptyString => [cur]
  | String c s' =>
      match skip with
      | S k => split_go sep k cur s'
      | O =>
          if startswith s sep
          then cur :: split_go sep (Strings.String.length sep - 1) EmptyString s'
          else split_go sep 0 (cur +:+ String c EmptyString) s'
      end
  end.

Definition py_split (s sep : string) : list string :=
  split_go sep 0 EmptyString s.

(** [sep.join(pieces)] *)
Fixpoint py_join (sep : string) (pieces : list string) : string :=
  match pieces with
  | [] => EmptyString
  | [piece] => piece
  | piece :: rest => piece +:+ sep +:+ py_join sep rest
  end.

(** ** The [Dataset] class *)

(** An instance carries the single attribute [data]. *)
Record Dataset := { data : pyval }.

(** What a pickle stream can decode to: a [Dataset] instance or plain data. *)
Inductive pyobj :=
  | ODataset (d : Dataset)
  | OValue (v : pyval).

(** [isinstance(o, Dataset)] *)
Definition isinstance_Dataset (o : pyobj) : bool :=
  match o with
  | ODataset _ => true
  | OValue _ => false
  end.

(** [type(o)] as [format] writes it into a message (Python 3 spelling) *)
Definition type_repr (o : pyobj) : string :=
  match o with
  | ODataset _ => "<class 'nimare.dataset.dataset.Dataset'>"
  | OValue v => "<class '" +:+ type_name v +:+ "'>"
  end.

(** [obj.get(key, default)]: only a [dict] has the method among the values
    [json.load] yields. *)
Definition call_get (obj : pyval) (key : string) (dflt : pyval) : result pyval :=
  match obj with
  | VDict m => Return (default dflt (m !! key))
  | _ => Raise (no_attribute obj "get")
  end.

(** [Dataset.has_data] *)
Definition has_data (self : Dataset) (dat_str : string) : result pyval :=
  let dat_str := py_split dat_str " AND " in
  for_each dat_str (λ ds,
    try_except_all
      (call_get (data self) ds VNone ≫= λ _, Return tt)
      (Raise (Exn Exception "Nope")));;
  Return VNone.

(** An algorithm object, as far as [get] looks at it. *)
Record Algorithm := { req_data : string }.

(** [iter(v)]: a dict yields its keys, a list its items, a string its
    characters; the other values are not iterable. *)
Definition string_chars (s : string) : list string :=
  (λ c, String c EmptyString) <$> Strings.String.list_ascii_of_string s.

Definition py_iter (v : pyval) : result (list pyval) :=
  match v with
  | VDict m => Return (VStr <$> (map_to_list m).*1)
  | VList l => Return l
  | VStr s => Return (VStr <$> string_chars s)
  | _ => Raise (Exn TypeError ("'" +:+ type_name v +:+ "' object is not iterable"))
  end.

(** [bool(v)] *)
Definition truthy (v : pyval) : bool :=
  match v with
  | VNone => false
  | VBool b => b
  | VInt n => bool_decide (n ≠ 0%Z)
  | VFloat bits => bool_decide (Z.land bits (Z.ones 63) ≠ 0%Z)
  | VStr s => bool_decide (s ≠ EmptyString)
  | VList l => bool_decide (length l ≠ 0)
  | VDict m => bool_decide (size m ≠ 0)
  end.

(** [stud.has_data(req_data)] for an item [stud] of [self.data]: none of the
    value types defines the attribute. *)
Definition call_has_data (stud : pyval) (req : string) : result pyval :=
  Raise (no_attribute stud "has_data").

(** [Dataset.get] *)
Definition get (self : Dataset) (search : string) (algorithm : option Algorithm)
    : result pyval :=
  match algorithm with
  | Some alg =>
      let req_data := req_data alg in
      studs ← py_iter (data self);
      temp ← comprehension_if studs
               (λ stud, truthy <$> call_has_data stud req_data);
      Return VNone
  | None => Return VNone
  end.

(** [self.data[study][field]] where both subscripts exist: how a statement
    reads one field of one study entry. *)
Definition record_field (self : Dataset) (study field : string) : option pyval :=
  match data self with
  | VDict m =>
      match m !! study with
      | Some (VDict entry) => entry !! field
      | _ => None
      end
  | _ => None
  end.

(** [Dataset.get_studies], [get_metadata], [get_images], [get_coordinates]:
    each body is [pass]. *)
Definition get_studies (self : Dataset) : result pyval := Return VNone.
Definition get_metadata (self : Dataset) : result pyval := Return VNone.
Definition get_images (self : Dataset) : result pyval := Return VNone.
Definition get_coordinates (self : Dataset) : result pyval := Return VNone.

(** ** Files and the library modules *)

Abbreviation bytes := (list Byte.byte).

(** The file system: the content stored under each path, a path being the
    string that the code passes to [open]. *)
Abbreviation fs := (gmap string bytes).

(** [open(filename, 'r')] / [open(filename, 'rb')] followed by reading the
    whole file. *)
Definition open_read (w : fs) (filename : string) : result bytes :=
  match w !! filename with
  | Some content => Return content
  | None =>
      Raise (Exn IOError
               ("[Errno 2] No such file or directory: '" +:+ filename +:+ "'"))
  end.

(** What the environment does to a write.  The code has no failure point of
    its own; an interrupted write is an event of the environment. *)
Inductive io_fault :=
  | NoFault                 (* the write goes through *)
  | OpenFails               (* the file cannot be opened for writing *)
  | WriteFailsAfter (n : nat). (* the device accepts [n] bytes, then fails *)

(** [with open(filename, 'wb') as fo: fo.write(content)]: mode ['wb'] creates
    or truncates the file at [filename] itself, and the bytes are appended
    to it in order. *)
Definition write_file (io : io_fault) (w : fs) (filename : string)
    (content : bytes) : fs * result unit :=
  match io with
  | NoFault => (<[filename := content]> w, Return tt)
  | OpenFails =>
      (w, Raise (Exn IOError
                   ("[Errno 13] Permission denied: '" +:+ filename +:+ "'")))
  | WriteFailsAfter n =>
      if bool_decide (n < length content)
      then (<[filename := take n content]> w,
            Raise (Exn IOError "[Errno 28] No space left on device"))
      else (<[filename := content]> w, Return tt)
  end.

(** The functions of [json], [pickle] and [gzip] that the module calls.
    [pickle_load] takes the optional [encoding] keyword.  [pickle_dump o] is
    the stream [pickle.dump] writes for an object [o] that it serialises.
    [gzip_decompress raw] is what [pickle.load] reads from a [gzip.GzipFile]
    over a file with content [raw]: the decompressed data up to the end of
    the compressed stream, or the error raised before that end is reached.
    The trailer after the compressed stream is only looked at by a read past
    the data, which [pickle.load] does not make once it has the whole
    pickle. *)
Class Libs := {
  json_load : bytes → result pyval;
  pickle_dump : pyobj → bytes;
  pickle_load : option string → bytes → result pyobj;
  gzip_compress : string → bytes → bytes;
  gzip_decompress : bytes → result bytes;
}.

Section dataset_io.
Context {L : Libs}.

(** [Dataset.__init__] *)
Definition __init__ (w : fs) (dataset_file : string) : result Dataset :=
  fo ← open_read w dataset_file;
  d ← json_load fo;
  Return {| data := d |}.

(** [Dataset.save], run in an environment [io]. *)
Definition save (io : io_fault) (w : fs) (self : Dataset) (filename : string)
    : fs * result pyval :=
  if endswith filename "z"
  then
    let '(w', r) :=
      write_file io w filename
                 (gzip_compress filename (pickle_dump (ODataset self))) in
    (w', r ≫= λ _, Return VNone)
  else
    let '(w', r) := write_file io w filename (pickle_dump (ODataset self)) in
    (w', r ≫= λ _, Return VNone).

(** [with gzip.GzipFile(filename, 'rb') as fo: pickle.load(fo, ...)] *)
Definition gzip_pickle_load (w : fs) (filename : string)
    (encoding : option string) : result pyobj :=
  raw ← open_read w filename;
  stream ← gzip_decompress raw;
  pickle_load encoding stream.

(** [with open(filename, 'rb') as fo: pickle.load(fo, ...)] *)
Definition raw_pickle_load (w : fs) (filename : string)
    (encoding : option string) : result pyobj :=
  stream ← open_read w filename;
  pickle_load encoding stream.

(** The object [Dataset.load] decodes before it checks its type. *)
Definition load_object (w : fs) (filename : string) : result pyobj :=
  if endswith filename "z"
  then
    try_except (gzip_pickle_load w filename None)
      UnicodeDecodeError
      (gzip_pickle_load w filename (Some "latin"))
  else
    try_except (raw_pickle_load w filename None)
      UnicodeDecodeError
      (raw_pickle_load w filename (Some "latin")).

(** The last statements of [Dataset.load]: the [isinstance] check on the
    decoded object. *)
Definition check_instance (dataset : pyobj) : result pyobj :=
  if negb (isinstance_Dataset dataset)
  then
    Raise (Exn IOError
             ("Pickled object must be `nimare.dataset.dataset.Dataset`, not "
              +:+ type_repr dataset))
  else Return dataset.

(** [Dataset.load] *)
Definition load (w : fs) (filename : string) : result pyobj :=
  dataset ← load_object w filename;
  check_instance dataset.

(** [pickle.load] on [stream] yields [o], at the first attempt or, after a
    [UnicodeDecodeError], at the second one with [encoding='latin']. *)
Definition unpickles_to (stream : bytes) (o : pyobj) : Prop :=
  pickle_load None stream = Return o
  ∨ ∃ e, pickle_load None stream = Raise e
         ∧ exn_class e = UnicodeDecodeError
         ∧ pickle_load (Some "latin") stream = Return o.

(** The bytes [Dataset.save] hands to the file at [filename]. *)
Definition saved_bytes (self : Dataset) (filename : string) : bytes :=
  if endswith filename "z"
  then gzip_compress filename (pickle_dump (ODataset self))
  else pickle_dump (ODataset self).

End dataset_io.

(** ** An executable instance of the library modules

    A small text format stands in for the three libraries so that the model
    runs on concrete files: JSON with integers and with strings in which a
    backslash makes the next character literal, extended by [f<n>] for the
    float with bit pattern [n]; a pickle stream that is a one-letter class
    tag followed by that text; a gzip member that is the two magic bytes,
    the size of the payload in four bytes, the stored payload, and a trailer
    of four bytes that repeats the size. *)
Module Demo.

Definition dquote : ascii := "034"%char.
Definition bslash : ascii := "092"%char.

(** Texts are written with ['] where the file has a double quote. *)
Fixpoint dq (s : string) : string :=
  match s with
  | EmptyString => EmptyString
  | String c s' => String (if decide (c = "'"%char) then dquote else c) (dq s')
  end.

Fixpoint skip_ws (s : string) : string :=
  match s with
  | String c s' => if Ascii.is_space c then skip_ws s' else s
  | EmptyString => s
  end.

Fixpoint read_digits (acc : Z) (s : string) : Z * string :=
  match s with
  | String c s' =>
      match Ascii.is_nat c with
      | Some d => read_digits (acc * 10 + Z.of_nat d) s'
      | None => (acc, s)
      end
  | EmptyString => (acc, s)
  end.

Definition read_nat (s : string) : option (Z * string) :=
  match s with
  | String c _ =>
      match Ascii.is_nat c with
      | Some _ => Some (read_digits 0 s)
      | None => None
      end
  | EmptyString => None
  end.

Definition read_int (s : string) : option (Z * string) :=
  match s with
  | String "-" s' => prod_map Z.opp id <$> read_nat s'
  | _ => read_nat s
  end.

(** The rest of a string literal, after its opening quote. *)
Fixpoint read_string (acc : string) (s : string) : option (string * string) :=
  match s with
  | EmptyString => None
  | String c s1 =>
      if decide (c = dquote) then Some (acc, s1)
      else if decide (c = bslash) then
        match s1 with
        | String c2 s2 => read_string (acc +:+ String c2 EmptyString) s2
        | EmptyString => None
        end
      else read_string (acc +:+ String c EmptyString) s1
  end.

Fixpoint parse_value (fuel : nat) (s : string) : option (pyval * string) :=
  match fuel with
  | O => None
  | S fuel' =>
      match skip_ws s with
      | String "n" (String "u" (String "l" (String "l" r))) => Some (VNone, r)
      | String "t" (String "r" (String "u" (String "e" r))) => Some (VBool true, r)
      | String "f" (String "a" (String "l" (String "s" (String "e" r)))) =>
          Some (VBool false, r)
      | String "f" r => prod_map VFloat id <$> read_int r
      | String "[" r =>
          match skip_ws r with
          | String "]" r1 => Some (VList [], r1)
          | _ => prod_map VList id <$> parse_items fuel' r
          end
      | String "{" r =>
          match skip_ws r with
          | String "}" r1 => Some (VDict ∅, r1)
          | _ => prod_map VDict id <$> parse_members fuel' r
          end
      | String c r as s0 =>
          if decide (c = dquote)
          then prod_map VStr id <$> read_string EmptyString r
          else prod_map VInt id <$> read_int s0
      | EmptyString => None
      end
  end
with parse_items (fuel : nat) (s : string) : option (list pyval * string) :=
  match fuel with
  | O => None
  | S fuel' =>
      '(v, r) ← parse_value fuel' s;
      match skip_ws r with
      | String "," r1 => prod_map (cons v) id <$> parse_items fuel' r1
      | String "]" r1 => Some ([v], r1)
      | _ => None
      end
  end
with parse_members (fuel : nat) (s : string)
    : option (gmap string pyval * string) :=
  match fuel with
  | O => None
  | S fuel' =>
      match skip_ws s with
      | String c r =>
          if decide (c = dquote) then
            '(k, r1) ← read_string EmptyString r;
            match skip_ws r1 with
            | String ":" r2 =>
                '(v, r3) ← parse_value fuel' r2;
                match skip_ws r3 with
                | String "," r4 =>
                    (* a later duplicate of a key wins, as in [json] *)
                    prod_map (λ m : gmap string pyval,
                                match m !! k with
                                | Some _ => m
                                | None => <[k := v]> m
                                end) id
                      <$> parse_members fuel' r4
                | String "}" r4 => Some ({[k := v]}, r4)
                | _ => None
                end
            | _ => None
            end
          else None
      | EmptyString => None
      end
  end.

(** The whole text must be one value. *)
Definition loads (s : string) : result pyval :=
  match parse_value (S (Strings.String.length s)) s with
  | Some (v, r) =>
      match skip_ws r with
      | EmptyString => Return v
      | _ => Raise (Exn ValueError "Extra data")
      end
  | None => Raise (Exn ValueError "No JSON object could be decoded")
  end.

Fixpoint escape (s : string) : string :=
  match s with
  | EmptyString => EmptyString
  | String c s' =>
      if decide (c = dquote ∨ c = bslash)
      then String bslash (String c (escape s'))
      else String c (escape s')
  end.

Definition quoted (s : string) : string :=
  String dquote (escape s +:+ String dquote EmptyString).

Fixpoint dumps (v : pyval) : string :=
  match v with
  | VNone => "null"
  | VBool true => "true"
  | VBool false => "false"
  | VInt n => pretty n
  | VFloat b => "f" +:+ pretty b
  | VStr s => quoted s
  | VList [] => "[]"
  | VList (x :: xs) =>
      "[" +:+ dumps x +:+ foldr (λ y acc, "," +:+ dumps y +:+ acc) "]" xs
  | VDict m =>
      "{" +:+ map_fold (λ k x acc,
                 quoted k +:+ ":" +:+ dumps x +:+
                 (if decide (acc = "}") then acc else "," +:+ acc)) "}" m
  end.

Definition text_of (b : bytes) : string := Strings.String.string_of_list_byte b.
Definition bytes_of (s : string) : bytes := Strings.String.list_byte_of_string s.

Definition demo_pickle_dump (o : pyobj) : bytes :=
  match o with
  | ODataset d => bytes_of ("D" +:+ dumps (data d))
  | OValue v => bytes_of ("V" +:+ dumps v)
  end.

Definition demo_pickle_load (encoding : option string) (b : bytes)
    : result pyobj :=
  match text_of b with
  | String "D" s => loads s ≫= λ v, Return (ODataset {| data := v |})
  | String "V" s => loads s ≫= λ v, Return (OValue v)
  | String _ _ => Raise (Exn UnpicklingError "invalid load key")
  | EmptyString => Raise (Exn EOFError "Ran out of input")
  end.

(** The [k] low bytes of [n], least significant first, and the number that
    such bytes stand for. *)
Fixpoint le_bytes (k : nat) (n : N) : bytes :=
  match k with
  | 0 => []
  | S k => default Byte.x00 (Byte.of_N (n mod 256)%N) :: le_bytes k (n / 256)%N
  end.

Fixpoint le_value (b : bytes) : N :=
  match b with
  | [] => 0%N
  | x :: b => (Byte.to_N x + 256 * le_value b)%N
  end.

Definition demo_gzip_compress (filename : string) (b : bytes) : bytes :=
  let size := le_bytes 4 (N.of_nat (length b)) in
  Byte.x1f :: Byte.x8b :: size ++ b ++ size.

(** Reading a member: the payload is complete once as many bytes as its
    size field announces have been read, and the trailer lies after it. *)
Definition demo_gzip_decompress (raw : bytes) : result bytes :=
  match raw with
  | Byte.x1f :: Byte.x8b :: rest =>
      let size := N.to_nat (le_value (take 4 rest)) in
      if bool_decide (4 + size ≤ length rest)
      then Return (take size (drop 4 rest))
      else Raise (Exn EOFError
                    "Compressed file ended before the end-of-stream marker was reached")
  | _ => Raise (Exn IOError "Not a gzipped file")
  end.

Definition libs : Libs := {|
  json_load := λ b, loads (text_of b);
  pickle_dump := demo_pickle_dump;
  pickle_load := demo_pickle_load;
  gzip_compress := demo_gzip_compress;
  gzip_decompress := demo_gzip_decompress;
|}.

End Demo.

(** ** Example data *)

(** The record of study [S1] in the running example: coordinates
    [[(1, 2, 3)]] and images [{"z": "s1_z.nii"}]. *)
Definition record_S1 : pyval :=
  VDict {[ "coordinates" := VList [VList [VInt 1; VInt 2; VInt 3]];
           "images" := VDict {[ "z" := VStr "s1_z.nii" ]} ]}.

(** The record of study [S2]: no coordinates, images
    [{"beta": "s2_beta.nii"}]. *)
Definition record_S2 : pyval :=
  VDict {[ "coordinates" := VList [];
           "images" := VDict {[ "beta" := VStr "s2_beta.nii" ]} ]}.

(** The two-study dataset of the running example. *)
Definition two_studies : Dataset :=
  {| data := VDict {[ "S1" := record_S1; "S2" := record_S2 ]} |}.

(** A structured file with one study entry that has coordinates only. *)
Definition coordinates_only_json : bytes :=
  Demo.bytes_of (Demo.dq "{'S1': {'coordinates': [[1, 2, 3]]}}").

(** What [json.load] makes of that file. *)
Definition coordinates_only_data : pyval :=
  VDict {[ "S1" := VDict {[ "coordinates" :=
                              VList [VList [VInt 1; VInt 2; VInt 3]] ]} ]}.

(** A plain mapping, pickled and stored where a snapshot is expected. *)
Definition plain_mapping : pyobj := OValue (VDict {[ "n" := VInt 12 ]}).

Definition mapping_fs : fs :=
  {[ "mapping.pkl" := pickle_dump (Libs := Demo.libs) plain_mapping;
     "mapping.pklz" :=
       gzip_compress (Libs := Demo.libs) "mapping.pklz"
         (pickle_dump (Libs := Demo.libs) plain_mapping) ]}.

(** A file system that holds a complete snapshot of the two-study dataset,
    raw under one path and compressed under another. *)
Definition snapshot_fs : fs :=
  {[ "studies.pkl" := pickle_dump (Libs := Demo.libs) (ODataset two_studies);
     "studies.pklz" :=
       gzip_compress (Libs := Demo.libs) "studies.pklz"
         (pickle_dump (Libs := Demo.libs) (ODataset two_studies)) ]}.

(** ** [download_combined_database]: the images table and its selection

    A table ([DataFrame]) is the list of its rows, in index order; a cell
    that is missing ([NaN]) is [None].  Only the columns the function reads
    are kept. *)

(** A row of the images table. *)
Record image_row := {
  image_id : N;
  cognitive_paradigm_cogatlas : option string;
  analysis_level : option string;
  is_thresholded : option bool;
  not_mni : option bool;
  map_type : option string;
  number_of_subjects : option Z;
}.

(** [df.dropna(subset=[column])] *)
Definition dropna {R A} (column : R → option A) (df : list R) : list R :=
  filter (λ r, is_Some (column r)) df.

(** [column == value], cell by cell: a missing cell equals nothing. *)
Definition col_eq {A} `{EqDecision A} (column : list (option A)) (value : A)
    : list bool :=
  (λ cell, bool_decide (cell = Some value)) <$> column.

(** [column.isin(values)] *)
Definition col_isin (column : list (option string)) (values : list string)
    : list bool :=
  (λ cell, match cell with
           | Some s => bool_decide (s ∈ values)
           | None => false
           end) <$> column.

(** [pd.isnull(column)] *)
Definition col_isnull {A} (column : list (option A)) : list bool :=
  (λ cell, match cell with Some _ => false | None => true end) <$> column.

(** [~mask], [mask1 & mask2] and [mask1 | mask2] on masks over one index *)
Definition mask_not (mask : list bool) : list bool := negb <$> mask.
Definition mask_and (mask1 mask2 : list bool) : list bool :=
  zip_with andb mask1 mask2.
Definition mask_or (mask1 mask2 : list bool) : list bool :=
  zip_with orb mask1 mask2.

(** [df.loc[mask]] for a mask over the index of [df] *)
Definition loc {R} (df : list R) (mask : list bool) : list R :=
  (filter (λ rb, rb.2 = true) (zip df mask)).*1.

(** [s.zfill(width)] for a string without a sign *)
Definition zfill (width : nat) (s : string) : string :=
  Strings.String.string_of_list_ascii
    (replicate (width - Strings.String.length s) "0"%char)
  +:+ s.

(** [red_df]: the images with a cognitive paradigm, at group level,
    unthresholded and in MNI space. *)
Definition red_images (image_df : list image_row) : list image_row :=
  let red_df := dropna cognitive_paradigm_cogatlas image_df in
  let red_df := loc red_df (col_eq (analysis_level <$> red_df) "group") in
  let red_df := loc red_df (col_eq (is_thresholded <$> red_df) false) in
  let red_df := loc red_df (col_eq (not_mni <$> red_df) false) in
  red_df.

(** [rfx_df]: the beta maps of [red_df]. *)
Definition rfx_images (red_df : list image_row) : list image_row :=
  loc red_df (col_eq (map_type <$> red_df) "univariate-beta map").

(** [keep_idx] after the loop over [n_types], for the table [st_df]. *)
Definition st_keep_idx (st_df : list image_row) : list bool :=
  let n_types := ["T map"] in
  let keep_idx := col_isin (map_type <$> st_df) ["Z map"; "F map"] in
  foldl (λ keep_idx n_type,
           let temp_idx :=
             mask_and (col_eq (map_type <$> st_df) n_type)
                      (mask_not (col_isnull (number_of_subjects <$> st_df))) in
           mask_or keep_idx temp_idx)
        keep_idx n_types.

(** [st_df]: the test-statistic maps of [red_df] that can be used, each with
    its [id_str] column. *)
Definition st_images (red_df : list image_row) : list (image_row * string) :=
  let acc_map_types := ["Z map"; "T map"; "F map"] in
  let st_df := loc red_df (col_isin (map_type <$> red_df) acc_map_types) in
  let st_df := loc st_df (st_keep_idx st_df) in
  (λ r, (r, zfill 6 (pretty (image_id r)))) <$> st_df.

(** ** Example tables *)

Definition example_image (id : N) (type : string) (n : option Z) : image_row :=
  {| image_id := id;
     cognitive_paradigm_cogatlas := Some "n-back task";
     analysis_level := Some "group";
     is_thresholded := Some false;
     not_mni := Some false;
     map_type := Some type;
     number_of_subjects := n |}.

(** A Z map, a T map with and one without a sample size, and a beta map. *)
Definition example_images : list image_row :=
  [ example_image 42 "Z map" None;
    example_image 1234567 "T map" (Some 20%Z);
    example_image 58 "T map" None;
    example_image 77 "univariate-beta map" (Some 18%Z) ].

(** * Properties *)

(** ** Strings *)

Lemma string_length_app (p s : string) :
  Strings.String.length (p +:+ s)
  = Strings.String.length p + Strings.String.length s.
Proof. induction p as [|c p IH]; simpl; [done | by rewrite IH]. Qed.

Lemma string_drop_app (p s : string) :
  string_drop (Strings.String.length p) (p +:+ s) = s.
Proof. induction p as [|c p IH]; simpl; done. Qed.

Lemma string_drop_split (n : nat) (s : string) :
  n ≤ Strings.String.length s →
  ∃ p, s = p +:+ string_drop n s ∧ Strings.String.length p = n.
Proof.
  revert s. induction n as [|n IH]; intros s Hn.
  - by exists EmptyString.
  - destruct s as [|c s]; simpl in *; [lia |].
    destruct (IH s) as (p & Hp & Hlen); [lia |].
    exists (String c p). split; [| by rewrite <- Hlen].
    change (String c s = String c (p +:+ string_drop n s)). by rewrite <- Hp.
Qed.

(** [endswith] is Python's suffix test: the string is some stem followed by
    the suffix. *)
Lemma endswith_spec (s suffix : string) :
  endswith s suffix = true ↔ ∃ stem, s = stem +:+ suffix.
Proof.
  unfold endswith. rewrite andb_true_iff, !bool_decide_eq_true. split.
  - intros [Hlen Hdrop].
    destruct (string_drop_split
                (Strings.String.length s - Strings.String.length suffix) s)
      as (p & Hp & _); [lia |].
    exists p. by rewrite Hdrop in Hp.
  - intros [stem ->]. rewrite string_length_app. split; [lia |].
    replace (Strings.String.length stem + Strings.String.length suffix
             - Strings.String.length suffix)
      with (Strings.String.length stem) by lia.
    apply string_drop_app.
Qed.

Lemma endswith_false_spec (s suffix : string) :
  endswith s suffix = false ↔ ¬ ∃ stem, s = stem +:+ suffix.
Proof. rewrite <- endswith_spec. destruct (endswith s suffix); naive_solver. Qed.

(** [split] always yields at least one piece. *)
Lemma split_go_cons (sep : string) (skip : nat) (cur s : string) :
  ∃ piece rest, split_go sep skip cur s = piece :: rest.
Proof.
  revert skip cur. induction s as [|c s IH]; intros skip cur; cbn [split_go].
  - by eexists _, _.
  - destruct skip as [|k]; [| apply IH].
    destruct (startswith (String c s) sep); [by eexists _, _ | apply IH].
Qed.

Lemma py_split_cons (s sep : string) :
  ∃ piece rest, py_split s sep = piece :: rest.
Proof. apply split_go_cons. Qed.

Lemma string_app_assoc (a b c : string) : (a +:+ b) +:+ c = a +:+ (b +:+ c).
Proof.
  induction a as [|x a IH]; [done |].
  change (String x ((a +:+ b) +:+ c) = String x (a +:+ (b +:+ c))).
  by rewrite IH.
Qed.

Lemma startswith_spec (s p : string) :
  startswith s p = true ↔ ∃ rest, s = p +:+ rest.
Proof.
  revert s. induction p as [|a p IH]; intros s.
  - destruct s; simpl; naive_solver.
  - destruct s as [|b s]; simpl.
    + split; [done | by intros [rest [=]]].
    + case_decide as Hab.
      * subst b. rewrite IH. split.
        -- intros [rest ->]. by exists rest.
        -- intros [rest Hrest]. exists rest.
           change (String a s = String a (p +:+ rest)) in Hrest. congruence.
      * split; [done |]. intros [rest Hrest].
        change (String b s = String a (p +:+ rest)) in Hrest. congruence.
Qed.

Lemma py_join_cons (sep piece next : string) (rest : list string) :
  py_join sep (piece :: next :: rest)
  = piece +:+ sep +:+ py_join sep (next :: rest).
Proof. done. Qed.

(** The scan loses nothing: with [skip] characters of a separator still to
    pass over, joining the pieces gives back the collected piece followed by
    what lies beyond them. *)
Lemma split_go_join (sep : string) (s : string) :
  sep ≠ EmptyString →
  ∀ (skip : nat) (cur tail beyond : string),
    s = tail +:+ beyond → Strings.String.length tail = skip →
    py_join sep (split_go sep skip cur s) = cur +:+ beyond.
Proof.
  intros Hsep.
  induction s as [|c s IH]; intros skip cur tail beyond Hs Hlen.
  - destruct tail as [|t tail].
    + change (EmptyString = beyond) in Hs. subst. cbn.
      induction cur as [|x cur IHcur]; [done |].
      change (String x cur = String x (cur +:+ "")). by rewrite <- IHcur.
    + change (EmptyString = String t (tail +:+ beyond)) in Hs. discriminate.
  - destruct tail as [|t tail]; simpl in Hlen; subst skip; cbn [split_go].
    + change (String c s = beyond) in Hs. subst beyond.
      destruct (startswith (String c s) sep) eqn:Hpre.
      * apply startswith_spec in Hpre as [rest Hrest].
        destruct sep as [|a sep']; [done |].
        change (String c s = String a (sep' +:+ rest)) in Hrest.
        injection Hrest as -> ->.
        destruct (split_go_cons (String a sep')
                    (Strings.String.length (String a sep') - 1) ""
                    (sep' +:+ rest)) as (p & r & Hsplit).
        rewrite Hsplit, py_join_cons, <- Hsplit.
        rewrite (IH _ "" sep' rest); [| done | simpl; lia].
        done.
      * rewrite (IH 0 _ "" s); [| done | done].
        by rewrite string_app_assoc.
    + change (String c s = String t (tail +:+ beyond)) in Hs.
      injection Hs as -> ->.
      by apply (IH _ cur tail beyond).
Qed.

(** Joining what [split] returns with the separator gives the string back. *)
Lemma py_split_join (s sep : string) :
  sep ≠ EmptyString → py_join sep (py_split s sep) = s.
Proof. intros Hsep. by apply (split_go_join sep s Hsep 0 "" "" s). Qed.

Example py_split_clauses :
  py_split "coordinates AND z" " AND " = ["coordinates"; "z"].
Proof. reflexivity. Qed.

Example py_split_one_clause : py_split "bogus_field" " AND " = ["bogus_field"].
Proof. reflexivity. Qed.

Example py_split_edges :
  py_split "" " AND " = [""]
  ∧ py_split "z AND " " AND " = ["z"; ""]
  ∧ py_split "x AND AND y" " AND " = ["x"; "AND y"]
  ∧ py_split "xANDy" " AND " = ["xANDy"].
Proof. repeat split; reflexivity. Qed.

Example endswith_z_paths :
  endswith "studies.pklz" "z" = true
  ∧ endswith "studies.pkl" "z" = false
  ∧ endswith "z" "z" = true
  ∧ endswith "" "z" = false.
Proof. repeat split; reflexivity. Qed.

(** ** Loops *)

Lemma for_each_all_return {A} (xs : list A) (body : A → result unit) :
  (∀ x, x ∈ xs → body x = Return tt) → for_each xs body = Return tt.
Proof.
  induction xs as [|x xs IH]; intros Hbody; simpl; [done |].
  rewrite (Hbody x) by (left; done). simpl.
  apply IH. intros y Hy. apply Hbody. by right.
Qed.

(** ** [has_data] *)

Lemma call_get_dict (m : gmap string pyval) (key : string) (dflt : pyval) :
  call_get (VDict m) key dflt = Return (default dflt (m !! key)).
Proof. done. Qed.

(** What [has_data] does, by the kind of [self.data]: on a mapping every
    lookup returns, the loop runs to its end and the method falls off it; on
    anything else the first lookup raises and the bare [except] turns that
    into [Exception('Nope')]. *)
Lemma has_data_cases (self : Dataset) (dat_str : string) :
  has_data self dat_str
  = match data self with
    | VDict _ => Return VNone
    | _ => Raise (Exn Exception "Nope")
    end.
Proof.
  unfold has_data.
  destruct (data self) as [| | | | | |m] eqn:Hd;
    try (destruct (py_split_cons dat_str " AND ") as (p & r & ->); done).
  rewrite for_each_all_return; [done |].
  intros ds _. by rewrite call_get_dict.
Qed.

(** C10: when [self.data] is a mapping, [has_data] completes without raising
    for every requirement string: each clause's lookup
    [self.data.get(ds, None)] returns (so the [except] branch is never
    entered), and the call returns [None], which is not a boolean, whatever
    clauses the mapping holds. *)
Theorem has_data_mapping_returns_None (m : gmap string pyval) (dat_str : string) :
  Forall (λ ds, call_get (VDict m) ds VNone = Return (default VNone (m !! ds)))
    (py_split dat_str " AND ")
  ∧ has_data {| data := VDict m |} dat_str = Return VNone
  ∧ (∀ e, has_data {| data := VDict m |} dat_str ≠ Raise e)
  ∧ (∀ b, has_data {| data := VDict m |} dat_str ≠ Return (VBool b)).
Proof.
  rewrite has_data_cases. simpl. repeat split; try done.
  apply Forall_forall. intros ds _. apply call_get_dict.
Qed.

(** C3, counterexample: on the record of [S1], the requirement
    ["coordinates AND bogus_field"] names a clause that is no data check at
    all, and [has_data] returns [None]: nothing is raised. *)
Lemma has_data_unknown_clause_no_error :
  has_data {| data := record_S1 |} "coordinates AND bogus_field" = Return VNone
  ∧ ∀ e, has_data {| data := record_S1 |} "coordinates AND bogus_field" ≠ Raise e.
Proof. rewrite has_data_cases. simpl. done. Qed.

(** C3, as amended: [has_data] does not tell recognized clause names from
    others.  For every record and every requirement string it either returns
    [None] (the record's data is a mapping) or raises the generic
    [Exception('Nope')] (it is not); the exception never names a clause. *)
Theorem has_data_outcome (self : Dataset) (dat_str : string) :
  ((∃ m, data self = VDict m) ∧ has_data self dat_str = Return VNone)
  ∨ ((∀ m, data self ≠ VDict m)
     ∧ has_data self dat_str = Raise (Exn Exception "Nope")).
Proof.
  rewrite has_data_cases.
  destruct (data self) eqn:Hd; try (right; done).
  left. eauto.
Qed.

(** C4, the code at a failing input: the record of [S1] has non-null
    [coordinates], yet [has_data] on ["coordinates"] returns [None], not
    [True]; on ["beta"], which the record lacks, it returns [None] as well. *)
Theorem has_data_no_boolean :
  has_data {| data := record_S1 |} "coordinates" = Return VNone
  ∧ has_data {| data := record_S1 |} "beta" = Return VNone
  ∧ call_get record_S1 "coordinates" VNone
    = Return (VList [VList [VInt 1; VInt 2; VInt 3]])
  ∧ call_get record_S1 "beta" VNone = Return VNone.
Proof. rewrite !has_data_cases. simpl. repeat split; by vm_compute. Qed.

(** ** [get] and the [pass]-bodied queries *)

(** [get] never hands back the list it builds: it returns [None] when no
    algorithm is given or [self.data] has no items, and otherwise fails on the
    first item, which has no [has_data] attribute. *)
Lemma get_cases (self : Dataset) (search : string) (alg : option Algorithm) :
  get self search alg
  = match alg with
    | None => Return VNone
    | Some _ =>
        match py_iter (data self) with
        | Return [] => Return VNone
        | Return (stud :: _) => Raise (no_attribute stud "has_data")
        | Raise e => Raise e
        end
    end.
Proof.
  unfold get. destruct alg as [a|]; [| done].
  destruct (py_iter (data self)) as [[|stud studs]|e]; done.
Qed.

(** Whatever [get] returns is [None]. *)
Lemma get_returns_only_None (self : Dataset) (search : string)
    (alg : option Algorithm) (v : pyval) :
  get self search alg = Return v → v = VNone.
Proof.
  rewrite get_cases. destruct alg as [a|]; [| congruence].
  destruct (py_iter (data self)) as [[|stud studs]|e]; congruence.
Qed.

(** C5, the code at failing inputs: on the two-study dataset, selecting with
    the requirement ["z"] raises [AttributeError] (the items of the mapping
    are its keys, which have no [has_data]) instead of returning the record
    of [S1]; on an empty dataset, and without an algorithm, [get] returns
    [None], not an empty sequence. *)
Theorem get_returns_no_records :
  (∃ msg, get two_studies "" (Some {| req_data := "z" |})
          = Raise (Exn AttributeError msg))
  ∧ get {| data := VDict ∅ |} "" (Some {| req_data := "z" |}) = Return VNone
  ∧ get two_studies "" None = Return VNone.
Proof. repeat split; [eexists |..]; by vm_compute. Qed.

(** C8, counterexample: [get_studies] on the two-study dataset returns
    [None] and raises nothing. *)
Lemma get_studies_returns_None :
  get_studies two_studies = Return VNone
  ∧ ∀ e, get_studies two_studies ≠ Raise e.
Proof. done. Qed.

(** C8, as amended: each of the four public query operations is total: for
    every dataset it returns [None], and none of them raises. *)
Theorem query_stubs_return_None (self : Dataset) :
  get_studies self = Return VNone
  ∧ get_metadata self = Return VNone
  ∧ get_images self = Return VNone
  ∧ get_coordinates self = Return VNone.
Proof. done. Qed.

(** ** Persistence: [__init__], [save] and [load] *)

Section persistence.
Context {L : Libs}.

Lemma open_read_Some (w : fs) (filename : string) (raw : bytes) :
  w !! filename = Some raw → open_read w filename = Return raw.
Proof. unfold open_read. by intros ->. Qed.

Lemma write_file_returns io (w w' : fs) (filename : string) (content : bytes) :
  write_file io w filename content = (w', Return tt) →
  w' = <[filename := content]> w.
Proof.
  destruct io as [| |n]; simpl; [naive_solver | naive_solver |].
  case_bool_decide; naive_solver.
Qed.

(** [save] is one [write_file] of [saved_bytes]. *)
Lemma save_unfold io (w : fs) (self : Dataset) (filename : string) :
  save io w self filename
  = let '(w', r) := write_file io w filename (saved_bytes self filename) in
    (w', r ≫= λ _, Return VNone).
Proof. unfold save, saved_bytes. by destruct (endswith filename "z"). Qed.

Lemma save_returns io (w w' : fs) (self : Dataset) (filename : string) v :
  save io w self filename = (w', Return v) →
  v = VNone ∧ w' = <[filename := saved_bytes self filename]> w.
Proof.
  rewrite save_unfold.
  destruct (write_file io w filename (saved_bytes self filename))
    as [w1 [[]|e]] eqn:Hw; simpl; [| done].
  intros [= <- <-]. split; [done |]. by eapply write_file_returns.
Qed.

Lemma load_object_gzip (w : fs) (filename : string) (raw : bytes) :
  endswith filename "z" = true → w !! filename = Some raw →
  load_object w filename
  = try_except (gzip_decompress raw ≫= pickle_load None)
      UnicodeDecodeError
      (gzip_decompress raw ≫= pickle_load (Some "latin")).
Proof.
  intros Hz Hraw. unfold load_object, gzip_pickle_load.
  by rewrite Hz, (open_read_Some _ _ _ Hraw).
Qed.

Lemma load_object_raw (w : fs) (filename : string) (raw : bytes) :
  endswith filename "z" = false → w !! filename = Some raw →
  load_object w filename
  = try_except (pickle_load None raw)
      UnicodeDecodeError
      (pickle_load (Some "latin") raw).
Proof.
  intros Hz Hraw. unfold load_object, raw_pickle_load.
  by rewrite Hz, (open_read_Some _ _ _ Hraw).
Qed.

Lemma try_except_unpickles (stream : bytes) (o : pyobj) :
  unpickles_to stream o →
  try_except (pickle_load None stream) UnicodeDecodeError
    (pickle_load (Some "latin") stream) = Return o.
Proof.
  intros [-> | (e & -> & He & Hlatin)]; simpl; [done |].
  by rewrite decide_True.
Qed.

(** The object [load] decodes from a stored file. *)
Lemma load_object_decodes (w : fs) (filename : string) (raw stream : bytes)
    (o : pyobj) :
  w !! filename = Some raw →
  (if endswith filename "z"
   then gzip_decompress raw = Return stream
   else stream = raw) →
  unpickles_to stream o →
  load_object w filename = Return o.
Proof.
  intros Hraw Hstream Ho.
  destruct (endswith filename "z") eqn:Hz.
  - rewrite (load_object_gzip _ _ _ Hz Hraw), Hstream. simpl.
    by apply try_except_unpickles.
  - subst stream. rewrite (load_object_raw _ _ _ Hz Hraw).
    by apply try_except_unpickles.
Qed.

(** C1: a snapshot written by a [save] that returned is read back by [load]
    at the same path as the dataset that was saved, for every dataset, file
    system and path, whether the path ends in ['z'] (gzip) or not (raw).  The
    libraries enter through what they do on this one stream: [pickle.load]
    inverts [pickle.dump] on it, and for a path ending in ['z'] gzip
    decompression inverts compression on it. *)
Theorem load_after_save io (w w' : fs) (self : Dataset) (filename : string) :
  save io w self filename = (w', Return VNone) →
  pickle_load None (pickle_dump (ODataset self)) = Return (ODataset self) →
  (∀ stem, filename = stem +:+ "z" →
     gzip_decompress (gzip_compress filename (pickle_dump (ODataset self)))
     = Return (pickle_dump (ODataset self))) →
  load w' filename = Return (ODataset self).
Proof.
  intros Hsave Hpickle Hgzip.
  apply save_returns in Hsave as [_ ->].
  unfold load.
  rewrite (load_object_decodes _ filename (saved_bytes self filename)
             (pickle_dump (ODataset self)) (ODataset self)); [done | | | ].
  - apply lookup_insert_eq.
  - unfold saved_bytes. destruct (endswith filename "z") eqn:Hz; [| done].
    apply endswith_spec in Hz as [stem Hstem]. by eapply Hgzip.
  - by left.
Qed.

(** C2: when the file at [filename] decodes to an object that is not a
    [Dataset] instance, [load] raises the error of its type check, an
    [IOError] whose message names the type found, and returns nothing. *)
Theorem load_rejects_other_types (w : fs) (filename : string)
    (raw stream : bytes) (o : pyobj) :
  w !! filename = Some raw →
  (if endswith filename "z"
   then gzip_decompress raw = Return stream
   else stream = raw) →
  unpickles_to stream o →
  isinstance_Dataset o = false →
  load w filename
  = Raise (Exn IOError
             ("Pickled object must be `nimare.dataset.dataset.Dataset`, not "
              +:+ type_repr o))
  ∧ ∀ r, load w filename ≠ Return r.
Proof.
  intros Hraw Hstream Ho Hinst. unfold load.
  rewrite (load_object_decodes _ _ _ _ _ Hraw Hstream Ho). simpl.
  unfold check_instance. rewrite Hinst. simpl. done.
Qed.

(** C6: the last character of the path alone selects compression.  When the
    path is some stem followed by ['z'], [save] stores the gzip-compressed
    pickle stream and [load] decompresses the stored bytes before
    unpickling; when it is not, [save] stores the pickle stream itself and
    [load] unpickles the stored bytes as they are. *)
Theorem suffix_selects_compression (w : fs) (self : Dataset)
    (filename : string) (raw : bytes) :
  ((∃ stem, filename = stem +:+ "z") →
     save NoFault w self filename
     = (<[filename := gzip_compress filename (pickle_dump (ODataset self))]> w,
        Return VNone)
     ∧ (w !! filename = Some raw →
        load w filename
        = try_except (gzip_decompress raw ≫= pickle_load None)
            UnicodeDecodeError
            (gzip_decompress raw ≫= pickle_load (Some "latin"))
          ≫= check_instance))
  ∧ ((¬ ∃ stem, filename = stem +:+ "z") →
     save NoFault w self filename
     = (<[filename := pickle_dump (ODataset self)]> w, Return VNone)
     ∧ (w !! filename = Some raw →
        load w filename
        = try_except (pickle_load None raw)
            UnicodeDecodeError
            (pickle_load (Some "latin") raw)
          ≫= check_instance)).
Proof.
  split.
  - intros Hz%endswith_spec. split.
    + unfold save. by rewrite Hz.
    + intros Hraw. unfold load. by rewrite (load_object_gzip _ _ _ Hz Hraw).
  - intros Hz%endswith_false_spec. split.
    + unfold save. by rewrite Hz.
    + intros Hraw. unfold load. by rewrite (load_object_raw _ _ _ Hz Hraw).
Qed.

(** C7, as amended: loading a structured file succeeds whenever [json.load]
    accepts it, and the dataset holds exactly the parsed value: nothing is
    added to a study entry, so a field the entry lacks ([images], [metadata]
    or [coordinates]) is still absent from the loaded record. *)
Theorem init_keeps_parsed_value (w : fs) (dataset_file : string) (raw : bytes)
    (v : pyval) :
  w !! dataset_file = Some raw →
  json_load raw = Return v →
  __init__ w dataset_file = Return {| data := v |}
  ∧ ∀ m study entry field,
      v = VDict m → m !! study = Some (VDict entry) → entry !! field = None →
      record_field {| data := v |} study field = None.
Proof.
  intros Hraw Hjson. split.
  - unfold __init__. rewrite (open_read_Some _ _ _ Hraw). simpl.
    by rewrite Hjson.
  - intros m study entry field -> Hstudy Hfield.
    unfold record_field. simpl. by rewrite Hstudy.
Qed.


End persistence.

(** ** The properties on concrete files *)

(** C1 at the two-study dataset, once for a path ending in ['z'] and once
    for one that does not. *)
Lemma load_after_save_witness :
  load (L := Demo.libs)
    (save (L := Demo.libs) NoFault ∅ two_studies "studies.pklz").1
    "studies.pklz"
  = Return (ODataset two_studies)
  ∧ load (L := Demo.libs)
      (save (L := Demo.libs) (WriteFailsAfter 4096) ∅ two_studies
         "studies.pkl").1
      "studies.pkl"
    = Return (ODataset two_studies).
Proof.
  split.
  - apply (load_after_save (L := Demo.libs) NoFault ∅ _ two_studies
             "studies.pklz").
    + reflexivity.
    + vm_compute. reflexivity.
    + intros stem _. reflexivity.
  - apply (load_after_save (L := Demo.libs) (WriteFailsAfter 4096) ∅ _
             two_studies "studies.pkl").
    + vm_compute. reflexivity.
    + vm_compute. reflexivity.
    + intros stem _. reflexivity.
Defined.

(** C2 at a pickled plain mapping, stored raw and stored compressed. *)
Lemma load_rejects_other_types_witness :
  load (L := Demo.libs) mapping_fs "mapping.pkl"
  = Raise (Exn IOError
             "Pickled object must be `nimare.dataset.dataset.Dataset`, not <class 'dict'>")
  ∧ load (L := Demo.libs) mapping_fs "mapping.pklz"
    = Raise (Exn IOError
               "Pickled object must be `nimare.dataset.dataset.Dataset`, not <class 'dict'>").
Proof.
  split.
  - refine (proj1 (load_rejects_other_types (L := Demo.libs) mapping_fs
                     "mapping.pkl"
                     (pickle_dump (Libs := Demo.libs) plain_mapping)
                     (pickle_dump (Libs := Demo.libs) plain_mapping)
                     plain_mapping _ _ _ _)).
    + vm_compute. reflexivity.
    + reflexivity.
    + left. vm_compute. reflexivity.
    + reflexivity.
  - refine (proj1 (load_rejects_other_types (L := Demo.libs) mapping_fs
                     "mapping.pklz"
                     (gzip_compress (Libs := Demo.libs) "mapping.pklz"
                        (pickle_dump (Libs := Demo.libs) plain_mapping))
                     (pickle_dump (Libs := Demo.libs) plain_mapping)
                     plain_mapping _ _ _ _)).
    + vm_compute. reflexivity.
    + reflexivity.
    + left. vm_compute. reflexivity.
    + reflexivity.
Defined.

(** C6 at the paths ["studies.pklz"] and ["studies.pkl"]. *)
Lemma suffix_selects_compression_witness :
  (save (L := Demo.libs) NoFault ∅ two_studies "studies.pklz"
   = ({[ "studies.pklz" :=
           Byte.x1f :: Byte.x8b
           :: Demo.le_bytes 4 115
              ++ pickle_dump (Libs := Demo.libs) (ODataset two_studies)
              ++ Demo.le_bytes 4 115 ]},
      Return VNone)
   ∧ load (L := Demo.libs) snapshot_fs "studies.pklz"
     = Return (ODataset two_studies))
  ∧ (save (L := Demo.libs) NoFault ∅ two_studies "studies.pkl"
     = ({[ "studies.pkl" :=
             pickle_dump (Libs := Demo.libs) (ODataset two_studies) ]},
        Return VNone)
     ∧ load (L := Demo.libs) snapshot_fs "studies.pkl"
       = Return (ODataset two_studies)).
Proof.
  assert (Hnot : ¬ ∃ stem, "studies.pkl" = stem +:+ "z").
  { intros [stem Hstem].
    assert (Hz : endswith "studies.pkl" "z" = true)
      by (apply endswith_spec; by exists stem).
    discriminate Hz. }
  split.
  - split.
    + refine (proj1 (proj1 (suffix_selects_compression (L := Demo.libs) ∅
                              two_studies "studies.pklz" []) _)).
      exists "studies.pkl". reflexivity.
    + rewrite (proj2 (proj1 (suffix_selects_compression (L := Demo.libs)
                               snapshot_fs two_studies "studies.pklz"
                               (gzip_compress (Libs := Demo.libs) "studies.pklz"
                                  (pickle_dump (Libs := Demo.libs)
                                     (ODataset two_studies))))
                            (ex_intro _ "studies.pkl" eq_refl))
                     eq_refl).
      vm_compute. reflexivity.
  - split.
    + exact (proj1 (proj2 (suffix_selects_compression (L := Demo.libs) ∅
                             two_studies "studies.pkl" []) Hnot)).
    + rewrite (proj2 (proj2 (suffix_selects_compression (L := Demo.libs)
                               snapshot_fs two_studies "studies.pkl"
                               (pickle_dump (Libs := Demo.libs)
                                  (ODataset two_studies))) Hnot)
                     eq_refl).
      vm_compute. reflexivity.
Defined.

(** C7, counterexample: the study entry [S1] of the file has no [images]
    key; loading succeeds, and the loaded record has no [images] either: it
    is not the empty mapping. *)
Lemma init_missing_images_stay_missing :
  __init__ (L := Demo.libs) {[ "dataset.json" := coordinates_only_json ]}
    "dataset.json"
  = Return {| data := coordinates_only_data |}
  ∧ record_field {| data := coordinates_only_data |} "S1" "images" = None
  ∧ record_field {| data := coordinates_only_data |} "S1" "images"
    ≠ Some (VDict ∅)
  ∧ record_field {| data := coordinates_only_data |} "S1" "metadata" = None.
Proof. repeat split; try by vm_compute. Qed.

(** C7, as amended, at that file. *)
Lemma init_keeps_parsed_value_witness :
  __init__ (L := Demo.libs) {[ "dataset.json" := coordinates_only_json ]}
    "dataset.json"
  = Return {| data := coordinates_only_data |}.
Proof.
  refine (proj1 (init_keeps_parsed_value (L := Demo.libs)
                   {[ "dataset.json" := coordinates_only_json ]}
                   "dataset.json" coordinates_only_json
                   coordinates_only_data _ _)).
  - reflexivity.
  - vm_compute. reflexivity.
Defined.



(** ** [download_combined_database]: selecting the images *)

(** Selecting with a mask computed row by row is filtering. *)
Lemma loc_fmap {R} (f : R → bool) (df : list R) :
  loc df (f <$> df) = filter (λ r, f r = true) df.
Proof.
  unfold loc. induction df as [|r df IH]; [done |].
  rewrite fmap_cons.
  change (zip (r :: df) (f r :: (f <$> df)))
    with ((r, f r) :: zip df (f <$> df)).
  destruct (f r) eqn:Hr.
  - rewrite filter_cons_True by done. rewrite (filter_cons_True _ r) by done.
    rewrite fmap_cons. f_equal. apply IH.
  - rewrite filter_cons_False by (simpl; congruence).
    rewrite (filter_cons_False _ r) by congruence. apply IH.
Qed.

Lemma mask_and_fmap {R} (f g : R → bool) (df : list R) :
  mask_and (f <$> df) (g <$> df) = (λ r, f r && g r) <$> df.
Proof.
  unfold mask_and. induction df as [|r df IH]; [done |].
  rewrite !fmap_cons. cbn [zip_with]. by rewrite IH.
Qed.

Lemma mask_or_fmap {R} (f g : R → bool) (df : list R) :
  mask_or (f <$> df) (g <$> df) = (λ r, f r || g r) <$> df.
Proof.
  unfold mask_or. induction df as [|r df IH]; [done |].
  rewrite !fmap_cons. cbn [zip_with]. by rewrite IH.
Qed.

Lemma loc_col_eq {R A} `{EqDecision A} (column : R → option A) (value : A)
    (df : list R) :
  loc df (col_eq (column <$> df) value)
  = filter (λ r, column r = Some value) df.
Proof.
  unfold col_eq. rewrite <- list_fmap_compose, loc_fmap.
  apply list_filter_iff. intros r. simpl. by rewrite bool_decide_eq_true.
Qed.

(** X9: [red_df] holds exactly the rows of [image_df] that have a cognitive
    paradigm, are at group level, are recorded as not thresholded and as in
    MNI space, in the order of [image_df]; a row in which one of the two
    flags is missing is dropped. *)
Theorem red_images_filter (image_df : list image_row) :
  red_images image_df
  = filter (λ r, is_Some (cognitive_paradigm_cogatlas r)
                 ∧ analysis_level r = Some "group"
                 ∧ is_thresholded r = Some false
                 ∧ not_mni r = Some false) image_df.
Proof.
  unfold red_images, dropna. rewrite !loc_col_eq, !list_filter_filter.
  apply list_filter_iff. intros r. tauto.
Qed.

Lemma fmap_pair_fst {R B} (g : R → B) (df : list R) :
  ((λ r, (r, g r)) <$> df).*1 = df.
Proof. induction df as [|r df IH]; [done |]. rewrite !fmap_cons. by f_equal. Qed.

(** The rows of [st_df], as a filter of [red_df]. *)
Lemma st_images_rows (red_df : list image_row) :
  (st_images red_df).*1
  = filter (λ r, map_type r = Some "Z map"
                 ∨ map_type r = Some "F map"
                 ∨ (map_type r = Some "T map"
                    ∧ is_Some (number_of_subjects r))) red_df.
Proof.
  unfold st_images. rewrite fmap_pair_fst.
  unfold st_keep_idx, col_isin, col_isnull, col_eq, mask_not. simpl.
  rewrite <- !list_fmap_compose.
  rewrite mask_and_fmap, mask_or_fmap, !loc_fmap, list_filter_filter.
  apply list_filter_iff. intros r. simpl.
  assert (Hn : negb match number_of_subjects r with
                    | Some _ => false
                    | None => true
                    end = true ↔ is_Some (number_of_subjects r)).
  { destruct (number_of_subjects r) as [k|]; simpl; split.
    - intros _. by exists k.
    - intros _. reflexivity.
    - intros H. discriminate H.
    - intros [k H]. discriminate H. }
  destruct (map_type r) as [t|].
  - rewrite orb_true_iff, andb_true_iff, !bool_decide_eq_true, Hn.
    rewrite !elem_of_cons, !elem_of_nil. split.
    + intros [[[-> | [-> | []]] | [Ht Hs]] _]; auto.
    + intros [H | [H | [H Hs]]]; injection H as ->; auto 10.
  - split.
    + intros [_ H]. discriminate H.
    + intros [H | [H | [H _]]]; discriminate H.
Qed.

Lemma rfx_images_filter (red_df : list image_row) :
  rfx_images red_df
  = filter (λ r, map_type r = Some "univariate-beta map") red_df.
Proof. apply loc_col_eq. Qed.

(** X10: [st_df] holds exactly the rows of [red_df] that are Z maps or F
    maps, or T maps with a number of subjects, in the order of [red_df]: a T
    map without a sample size is dropped, and so is every other map type. *)
Theorem st_images_selection (red_df : list image_row) :
  (st_images red_df).*1
  = filter (λ r, map_type r = Some "Z map"
                 ∨ map_type r = Some "F map"
                 ∨ (map_type r = Some "T map"
                    ∧ is_Some (number_of_subjects r))) red_df.
Proof. apply st_images_rows. Qed.

(** X11: no image is selected twice: a row of [rfx_df] (a beta map) is never
    a row of [st_df] (a test-statistic map), and both tables hold rows of
    [red_df] only. *)
Theorem rfx_st_disjoint (red_df : list image_row) (r : image_row) :
  (r ∈ rfx_images red_df → r ∉ (st_images red_df).*1)
  ∧ (r ∈ rfx_images red_df → r ∈ red_df)
  ∧ (r ∈ (st_images red_df).*1 → r ∈ red_df).
Proof.
  rewrite rfx_images_filter, st_images_rows, !list_elem_of_filter.
  split_and!.
  - intros [Hbeta _] [Hst _]. rewrite Hbeta in Hst.
    destruct Hst as [[=] | [[=] | [[=] _]]].
  - by intros [_ ?].
  - by intros [_ ?].
Qed.

(** The decimal numeral of a positive number starts with a digit other than
    zero. *)
Lemma pretty_N_go_head (x : N) (s : string) :
  (0 < x)%N → ∃ c t, pretty_N_go x s = String c t ∧ c ≠ "0"%char.
Proof.
  revert s. induction (N.lt_wf_0 x) as [x _ IH]; intros s Hx.
  rewrite pretty_N_go_step by done.
  destruct (decide (x < 10)%N) as [Hsmall|Hbig].
  - rewrite N.div_small, pretty_N_go_0, N.mod_small by done.
    eexists _, _. split; [done |]. intros Hzero.
    apply (pretty_N_char_inj x 0) in Hzero; lia.
  - apply IH; [apply N.div_lt; lia |].
    apply N.div_str_pos. lia.
Qed.

Lemma pretty_N_head (x : N) :
  pretty x = "0" ∨ ∃ c t, pretty x = String c t ∧ c ≠ "0"%char.
Proof.
  unfold pretty, pretty_N. case_decide; [by left | right].
  apply pretty_N_go_head. lia.
Qed.

Lemma zeros_length (k : nat) :
  Strings.String.length
    (Strings.String.string_of_list_ascii (replicate k "0"%char)) = k.
Proof. induction k as [|k IH]; simpl; congruence. Qed.

(** Padding with zeros does not merge two numerals. *)
Lemma zeros_app_inj (i j : nat) (p q : string) :
  (p = "0" ∨ ∃ c t, p = String c t ∧ c ≠ "0"%char) →
  (q = "0" ∨ ∃ c t, q = String c t ∧ c ≠ "0"%char) →
  Strings.String.string_of_list_ascii (replicate i "0"%char) +:+ p
  = Strings.String.string_of_list_ascii (replicate j "0"%char) +:+ q →
  p = q.
Proof.
  assert (Hhead : ∀ k p q,
    (p = "0" ∨ ∃ c t, p = String c t ∧ c ≠ "0"%char) →
    (q = "0" ∨ ∃ c t, q = String c t ∧ c ≠ "0"%char) →
    p = String "0"
          (Strings.String.string_of_list_ascii (replicate k "0"%char) +:+ q) →
    False).
  { intros k p' q' [-> | (c & t & -> & Hc)] Hq [=]; [| congruence].
    destruct k; [| done].
    destruct Hq as [-> | (c & t & -> & _)]; done. }
  revert j. induction i as [|i IH]; intros [|j] Hp Hq Heq.
  - done.
  - destruct (Hhead j p q Hp Hq Heq).
  - symmetry in Heq. destruct (Hhead i q p Hq Hp Heq).
  - injection Heq as Heq. by apply (IH j).
Qed.

(** X12: the [id_str] of a row of [st_df] is at least six characters long,
    and two rows have the same [id_str] exactly when they have the same
    [image_id]. *)
Theorem id_str_identifies_image (red_df : list image_row)
    (r1 r2 : image_row) (s1 s2 : string) :
  (r1, s1) ∈ st_images red_df →
  (r2, s2) ∈ st_images red_df →
  6 ≤ Strings.String.length s1
  ∧ (s1 = s2 ↔ image_id r1 = image_id r2).
Proof.
  unfold st_images.
  intros (r1' & [= -> ->] & _)%list_elem_of_fmap
         (r2' & [= -> ->] & _)%list_elem_of_fmap.
  split.
  - unfold zfill. rewrite string_length_app, zeros_length. lia.
  - split; [| by intros ->].
    intros Heq. apply (inj pretty).
    eapply zeros_app_inj; [apply pretty_N_head | apply pretty_N_head | exact Heq].
Qed.

(** ** More on [load] and [get] *)

Section persistence_more.
Context {L : Libs}.



End persistence_more.

Lemma string_chars_nil (s : string) : string_chars s = [] ↔ s = EmptyString.
Proof. by destruct s. Qed.

(** X18: given an algorithm, [get] returns only for a dataset without items
    (an empty mapping, list or string), and then it returns [None]; on any
    other data it raises. *)
Theorem get_with_algorithm_returns_iff (self : Dataset) (search : string)
    (alg : Algorithm) (v : pyval) :
  get self search (Some alg) = Return v
  ↔ v = VNone
    ∧ (data self = VDict ∅ ∨ data self = VList [] ∨ data self = VStr "").
Proof.
  rewrite get_cases. unfold py_iter.
  destruct (data self) as [| | | |s|l|m] eqn:Hd; simpl;
    try (split; [done | by intros [_ [|[|]]]]).
  - destruct s as [|c s]; simpl.
    + split; [intros [= <-]; auto | by intros [-> _]].
    + split; [done | by intros [_ [|[|]]]].
  - destruct l as [|x l].
    + split; [intros [= <-]; auto | by intros [-> _]].
    + split; [done | by intros [_ [|[|]]]].
  - destruct (map_to_list m) as [|[k x] kvs] eqn:Hm; simpl.
    + apply map_to_list_empty_iff in Hm as ->.
      split; [intros [= <-]; auto | by intros [-> _]].
    + split; [done |].
      intros [_ [[= ->] | [|]]]; [| done..].
      by rewrite map_to_list_empty in Hm.
Qed.

(** ** The further properties on concrete inputs *)

(** X11 at the beta map of the example images. *)
Lemma rfx_st_disjoint_witness :
  example_image 77 "univariate-beta map" (Some 18%Z)
  ∉ (st_images (red_images example_images)).*1.
Proof.
  apply (rfx_st_disjoint (red_images example_images)).
  vm_compute. repeat constructor.
Defined.

(** X12 at the Z map and the T map of the example images. *)
Lemma id_str_identifies_image_witness :
  6 ≤ Strings.String.length "000042"
  ∧ ("000042" = "1234567" ↔ 42%N = 1234567%N).
Proof.
  apply (id_str_identifies_image (red_images example_images)
           (example_image 42 "Z map" None)
           (example_image 1234567 "T map" (Some 20%Z))).
  - vm_compute. repeat constructor.
  - vm_compute. repeat constructor.
Defined.
